(** * Site health probes: redirect, HSTS and liveness checks

    A shallow embedding of [main.py], the pytest module that probes the
    TLS and redirect posture of [kouidri.fr], together with the part of
    its environment the checks observe: Python strings, the header
    dictionary of [requests], [urllib.parse.urlparse], a session heap and
    the way pytest hands a fixture to each test function. *)

From Stdlib Require Import ZArith Ascii String.
From stdpp Require Import gmap strings list pretty.


Local Open Scope Z_scope.

(** ** Python strings

    A header value reaches the checks as a [str] decoded from latin-1, so
    its code points are exactly the 256 values of [ascii]. *)

Module Py.

Definition ord (c : ascii) : N := N_of_ascii c.

(** [c.isascii() and c.isalpha()] *)
Definition is_ascii_alpha (c : ascii) : bool :=
  let n := ord c in
  (((65 <=? n) && (n <=? 90)) || ((97 <=? n) && (n <=? 122)))%N.

Definition is_digit (c : ascii) : bool :=
  let n := ord c in ((48 <=? n) && (n <=? 57))%N.

Definition is_hex_digit (c : ascii) : bool :=
  let n := ord c in
  (is_digit c || ((65 <=? n) && (n <=? 70)) || ((97 <=? n) && (n <=? 102)))%N.

(** [c.lower()] on a latin-1 code point: the letters A-Z and the accented
    capitals U+00C0..U+00DE (the multiplication sign U+00D7 apart) move up
    by 32, every other code point is its own lower case. *)
Definition lower_char (c : ascii) : ascii :=
  let n := ord c in
  if (((65 <=? n) && (n <=? 90))
      || ((192 <=? n) && (n <=? 222) && negb (n =? 215)))%N
  then ascii_of_N (n + 32) else c.

(** [s.lower()] *)
Fixpoint lower (s : string) : string :=
  match s with
  | EmptyString => EmptyString
  | String c s' => String (lower_char c) (lower s')
  end.

(** [s.startswith(p)] *)
Fixpoint startswith (s p : string) {struct p} : bool :=
  match p, s with
  | EmptyString, _ => true
  | String _ _, EmptyString => false
  | String a p', String b s' => if decide (a = b) then startswith s' p' else false
  end.

(** [needle in hay] for two strings *)
Fixpoint contains (hay needle : string) : bool :=
  startswith hay needle ||
  match hay with
  | EmptyString => false
  | String _ hay' => contains hay' needle
  end.

(** [c in s] for a character *)
Fixpoint has_char (c : ascii) (s : string) : bool :=
  match s with
  | EmptyString => false
  | String a s' => if decide (a = c) then true else has_char c s'
  end.

(** [s[:n]] *)
Fixpoint slice_to (n : nat) (s : string) : string :=
  match n, s with
  | O, _ => EmptyString
  | S _, EmptyString => EmptyString
  | S n', String c s' => String c (slice_to n' s')
  end.

(** [s[n:]] *)
Fixpoint slice_from (n : nat) (s : string) : string :=
  match n, s with
  | O, _ => s
  | S _, EmptyString => EmptyString
  | S n', String _ s' => slice_from n' s'
  end.

(** [s.find(c)], with [None] for Python's [-1] *)
Fixpoint find (c : ascii) (s : string) : option nat :=
  match s with
  | EmptyString => None
  | String a s' => if decide (a = c) then Some O else S <$> find c s'
  end.

(** [s.find(c, start)] for [0 <= start] *)
Definition find_from (c : ascii) (start : nat) (s : string) : option nat :=
  (fun i => (start + i)%nat) <$> find c (slice_from start s).

(** [s.rfind(c)] *)
Fixpoint rfind (c : ascii) (s : string) : option nat :=
  match s with
  | EmptyString => None
  | String a s' =>
      match rfind c s' with
      | Some i => Some (S i)
      | None => if decide (a = c) then Some O else None
      end
  end.

(** [s.lstrip(chars)] for a set of characters given as a predicate *)
Fixpoint lstrip (strip : ascii -> bool) (s : string) : string :=
  match s with
  | EmptyString => EmptyString
  | String c s' => if strip c then lstrip strip s' else s
  end.

(** [s.replace(c, "")] for every character [c] of a set *)
Fixpoint remove (drop : ascii -> bool) (s : string) : string :=
  match s with
  | EmptyString => EmptyString
  | String c s' => if drop c then remove drop s' else String c (remove drop s')
  end.

(** [all(p(c) for c in s)] *)
Fixpoint all_chars (p : ascii -> bool) (s : string) : bool :=
  match s with
  | EmptyString => true
  | String c s' => p c && all_chars p s'
  end.

(** [s.partition(c)]: the text before the first [c], whether [c] was
    found, and the text after it. *)
Definition partition (c : ascii) (s : string) : string * bool * string :=
  match find c s with
  | Some i => (slice_to i s, true, slice_from (S i) s)
  | None => (s, false, EmptyString)
  end.

(** [s.rpartition(c)[2]]: the text after the last [c], all of [s] when
    there is none. *)
Definition after_last (c : ascii) (s : string) : string :=
  match rfind c s with
  | Some i => slice_from (S i) s
  | None => s
  end.

(** [str(n)] for an [int] *)
Definition str_of_int (n : Z) : string := pretty n.

End Py.

(** ** Exceptions

    The exceptions that can leave a test: a failed [assert], the
    [ValueError] of [urlparse], a transport error of [requests]. [Fault]
    is not a Python exception: it marks a session handle that names no
    object, which pytest never passes. *)

Inductive Exn : Type :=
| AssertionError (msg : string)
| ValueError (msg : string)
| RequestException (msg : string)
| Fault.

(** ** [urllib.parse.urlparse] (CPython 3.11, [str] arguments, default
    [scheme] and [allow_fragments]) *)

Record ParseResult : Type := mkParseResult {
  scheme : string;
  netloc : string;
  path : string;
  params : string;
  query : string;
  fragment : string
}.

Inductive IPAddress : Type := IPv4Address | IPv6Address.

Module UrlParse.

Definition uses_params : list string :=
  [""; "ftp"; "hdl"; "prospero"; "http"; "imap"; "https"; "shttp"; "rtsp";
   "rtspu"; "sip"; "sips"; "mms"; "sftp"; "tel"].

(** [c in scheme_chars] *)
Definition is_scheme_char (c : ascii) : bool :=
  Py.is_ascii_alpha c || Py.is_digit c
  || Py.has_char c "+-.".

(** [c in _WHATWG_C0_CONTROL_OR_SPACE] *)
Definition is_c0_control_or_space (c : ascii) : bool := (Py.ord c <=? 32)%N.

(** [c in _UNSAFE_URL_BYTES_TO_REMOVE] *)
Definition is_unsafe_url_byte (c : ascii) : bool :=
  let n := Py.ord c in ((n =? 9) || (n =? 13) || (n =? 10))%N.

(** The position of the first of ['/'], ['?'], ['#'] in [s], its length
    when there is none. *)
Fixpoint first_delim (s : string) : nat :=
  match s with
  | EmptyString => O
  | String c s' => if Py.has_char c "/?#" then O else S (first_delim s')
  end.

(** [_splitnetloc(url, 2)] *)
Definition _splitnetloc (url : string) : string * string :=
  let rest := Py.slice_from 2 url in
  let delim := first_delim rest in
  (Py.slice_to delim rest, Py.slice_from delim rest).

(** [_splitparams(url)] *)
Definition _splitparams (url : string) : string * string :=
  let cut (i : nat) := (Py.slice_to i url, Py.slice_from (S i) url) in
  match Py.rfind "/" url with
  | Some slash =>
      match Py.find_from ";" slash url with
      | Some i => cut i
      | None => (url, "")
      end
  | None =>
      (* [i = url.find(';')] is not [-1] here: the caller has checked
         [';' in url] *)
      match Py.find ";" url with
      | Some i => cut i
      | None => (Py.slice_to (String.length url - 1) url, url)
      end
  end.

(** [re.match(r"\Av[a-fA-F0-9]+\..+\Z", hostname)]: after the [v], hex
    digits up to the first dot, at least one of them, and a non-empty rest
    without a line feed. *)
Definition is_ipvfuture (hostname : string) : bool :=
  match hostname with
  | String "v" s =>
      match Py.find "." s with
      | Some (S i) =>
          let tail := Py.slice_from (S (S i)) s in
          Py.all_chars Py.is_hex_digit (Py.slice_to (S i) s)
          && negb (String.eqb tail "")
          && negb (Py.has_char "010" tail)
      | _ => false
      end
  | _ => false
  end.

Section WithIpaddress.

(** [ipaddress.ip_address]: the kind of address a string denotes, or the
    message of the [ValueError] it raises. The module is outside this
    development. *)
Variable ip_address : string -> string + IPAddress.

(** [_check_bracketed_host(hostname)] *)
Definition _check_bracketed_host (hostname : string) : option Exn :=
  if Py.startswith hostname "v" then
    if is_ipvfuture hostname then None
    else Some (ValueError "IPvFuture address is invalid")
  else
    match ip_address hostname with
    | inl msg => Some (ValueError msg)
    | inr IPv4Address => Some (ValueError "An IPv4 address cannot be in brackets")
    | inr IPv6Address => None
    end.

(** [_check_bracketed_netloc(netloc)] *)
Definition _check_bracketed_netloc (netloc : string) : option Exn :=
  let hostname_and_port := Py.after_last "@" netloc in
  let '(before_bracket, have_open_br, bracketed) := Py.partition "[" hostname_and_port in
  if have_open_br then
    if negb (String.eqb before_bracket "") then Some (ValueError "Invalid IPv6 URL")
    else
      let '(hostname, _, port) := Py.partition "]" bracketed in
      if negb (String.eqb port "") && negb (Py.startswith port ":")
      then Some (ValueError "Invalid IPv6 URL")
      else _check_bracketed_host hostname
  else
    let '(hostname, _, _) := Py.partition ":" hostname_and_port in
    _check_bracketed_host hostname.

(** The checks [urlsplit] runs on a network location. [_checknetloc]
    raises only when NFKC normalisation introduces one of [/?#@:], which no
    latin-1 code point does, so it is silent on every string modelled
    here. *)
Definition check_netloc (netloc : string) : option Exn :=
  let open := Py.has_char "[" netloc in
  let close := Py.has_char "]" netloc in
  if (open && negb close) || (close && negb open)
  then Some (ValueError "Invalid IPv6 URL")
  else if open && close then _check_bracketed_netloc netloc
  else None.

(** [urlsplit(url)], as the five components scheme, netloc, path, query and
    fragment. *)
Definition urlsplit (url : string)
  : Exn + (string * string * string * string * string) :=
  let url := Py.lstrip is_c0_control_or_space url in
  let url := Py.remove is_unsafe_url_byte url in
  let '(scheme, url) :=
    match Py.find ":" url, url with
    | Some (S i), String c _ =>
        if Py.is_ascii_alpha c
           && Py.all_chars is_scheme_char (Py.slice_to (S i) url)
        then (Py.lower (Py.slice_to (S i) url), Py.slice_from (S (S i)) url)
        else ("", url)
    | _, _ => ("", url)
    end in
  let '(netloc, url, bad) :=
    if String.eqb (Py.slice_to 2 url) "//" then
      let '(netloc, url) := _splitnetloc url in
      (netloc, url, check_netloc netloc)
    else ("", url, None) in
  match bad with
  | Some e => inl e
  | None =>
      let '(url, fragment) :=
        if Py.has_char "#" url
        then let '(a, _, b) := Py.partition "#" url in (a, b)
        else (url, "") in
      let '(url, query) :=
        if Py.has_char "?" url
        then let '(a, _, b) := Py.partition "?" url in (a, b)
        else (url, "") in
      inr (scheme, netloc, url, query, fragment)
  end.

(** [urlparse(url)] *)
Definition urlparse (url : string) : Exn + ParseResult :=
  match urlsplit url with
  | inl e => inl e
  | inr (scheme, netloc, url, query, fragment) =>
      let '(url, params) :=
        if bool_decide (scheme ∈ uses_params) && Py.has_char ";" url
        then _splitparams url
        else (url, "") in
      inr (mkParseResult scheme netloc url params query fragment)
  end.

End WithIpaddress.

End UrlParse.

(** ** [requests]: responses, sessions and the server under test *)

(** The store of a [CaseInsensitiveDict]: the lower-cased header name maps
    to the name as it was sent and the value. *)
Abbreviation CaseInsensitiveDict := (gmap string (string * string)).

(** [headers.get(key)], [None] when the header is absent *)
Definition headers_get (key : string) (headers : CaseInsensitiveDict) : option string :=
  snd <$> headers !! Py.lower key.

(** [headers[key] = value] *)
Definition headers_set (key value : string) (headers : CaseInsensitiveDict)
  : CaseInsensitiveDict :=
  <[Py.lower key := (key, value)]> headers.

Record Response : Type := mkResponse {
  status_code : Z;
  headers : CaseInsensitiveDict
}.

(** A [requests.Session], reduced to the one attribute [main.py] writes. *)
Record Session : Type := mkSession {
  verify : bool
}.

(** One GET as it left the client: the session object it was sent on, the
    URL, whether redirects were followed and whether the certificate was
    verified. *)
Record Sent : Type := mkSent {
  via : nat;
  target : string;
  followed : bool;
  tls_verified : bool
}.

(** The client side of a test run: the session objects allocated so far
    (an object's identity is its index), the requests sent, and what was
    printed. *)
Record State : Type := mkState {
  sessions : list Session;
  sent : list Sent;
  stdout : list string
}.

Definition initial_state : State := mkState [] [] [].

(** ** Computations that read and write the state and may raise *)

Definition M (A : Type) : Type := State → (Exn + A) * State.

#[export] Instance M_ret : MRet M := λ A (a : A) st, (inr a, st).

#[export] Instance M_bind : MBind M := λ A B (k : A → M B) (m : M A) st,
  match m st with
  | (inr a, st') => k a st'
  | (inl e, st') => (inl e, st')
  end.

Definition raise {A : Type} (e : Exn) : M A := λ st, (inl e, st).

(** [assert cond, msg] *)
Definition py_assert (cond : bool) (msg : string) : M () :=
  if cond then mret () else raise (AssertionError msg).

(** [print(line)] *)
Definition print (line : string) : M () := λ st,
  (inr (), mkState (sessions st) (sent st) (stdout st ++ [line])).

(** Lifting an [Exn + A] into a computation *)
Definition lift {A : Type} (r : Exn + A) : M A :=
  match r with
  | inl e => raise e
  | inr a => mret a
  end.

(** ** Configuration *)

Definition NON_WWW_DOMAIN : string := "kouidri.fr".
Definition WWW_DOMAIN : string := "www." +:+ NON_WWW_DOMAIN.

Definition HTTP_WWW_URL : string := "http://" +:+ WWW_DOMAIN.
Definition HTTPS_NON_WWW_URL : string := "https://" +:+ NON_WWW_DOMAIN.
Definition HTTPS_WWW_URL : string := "https://" +:+ WWW_DOMAIN.

(** ** Servers and library instances to run the checks on *)

(** A server that answers the three requests of [main.py] and refuses
    every other one. An answer is a response or the message of the
    transport error the request ends in. *)
Definition serve (http_www https_non_www https_www : string + Response)
  (url : string) (allow_redirects : bool) : string + Response :=
  if bool_decide (url = HTTP_WWW_URL) && negb allow_redirects then http_www
  else if bool_decide (url = HTTPS_NON_WWW_URL) && negb allow_redirects then https_non_www
  else if bool_decide (url = HTTPS_WWW_URL) && allow_redirects then https_www
  else inl "connection refused".

Definition redirect_to (code : Z) (location : string) : Response :=
  mkResponse code (headers_set "Location" location ∅).

Definition page (code : Z) (hsts : option string) : Response :=
  mkResponse code
    (match hsts with
     | Some v => headers_set "Strict-Transport-Security" v ∅
     | None => ∅
     end).

(** The posture the checks are written for. *)
Definition healthy : string → bool → string + Response :=
  serve (inr (redirect_to 301 "https://www.kouidri.fr/"))
        (inr (redirect_to 301 "https://www.kouidri.fr/"))
        (inr (page 200 (Some "max-age=31536000; includeSubDomains"))).

Definition good_redirect : string + Response :=
  inr (redirect_to 301 "https://www.kouidri.fr/").

Definition good_page : string + Response :=
  inr (page 200 (Some "max-age=31536000; includeSubDomains")).

(** [healthy], and a second site behind another name. *)
Definition healthy_and_more (url : string) (allow_redirects : bool) : string + Response :=
  if bool_decide (url = "https://status.kouidri.fr") then inr (page 204 None)
  else healthy url allow_redirects.

(** An [ip_address] that accepts no string; the hosts the examples use
    carry no matched pair of brackets and never reach it. *)
Definition ip_address_none (address : string) : string + IPAddress :=
  inl ("'" +:+ address +:+ "' does not appear to be an IPv4 or IPv6 address").

(** ** The test module *)

Inductive Outcome : Type :=
| PASSED
| FAILED (e : Exn).

Inductive TestId : Type :=
| Liveness
| HttpToHttpsRedirect
| NonWwwToWwwRedirect
| HstsHeader.

Section Probe.

(** [ipaddress.ip_address], which [urlparse] consults for a bracketed
    host. *)
Variable ip_address : string → string + IPAddress.

(** The server under test: for a URL and the redirect-following flag, the
    response [Session.get] returns (the last one of the chain when redirects
    are followed), or the message of the transport error it raises. *)
Variable server : string → bool → string + Response.

Local Abbreviation urlparse := (UrlParse.urlparse ip_address).

(** [requests.Session()]: a new object, verifying certificates by
    default. *)
Definition Session_new : M nat := λ st,
  (inr (length (sessions st)),
   mkState (sessions st ++ [mkSession true]) (sent st) (stdout st)).

(** [session.verify = value] *)
Definition Session_set_verify (session : nat) (value : bool) : M () := λ st,
  (inr (), mkState (<[session := mkSession value]> (sessions st)) (sent st) (stdout st)).

(** [session.get(url, allow_redirects=...)]. A handle that names no
    object has no counterpart in Python; the computation then stops with
    [Fault]. *)
Definition Session_get (session : nat) (url : string) (allow_redirects : bool)
  : M Response := λ st,
  match sessions st !! session with
  | Some s =>
      (match server url allow_redirects with
       | inl msg => inl (RequestException msg)
       | inr response => inr response
       end,
       mkState (sessions st)
               (sent st ++ [mkSent session url allow_redirects (verify s)])
               (stdout st))
  | None => (inl Fault, st)
  end.

(** [@pytest.fixture def http_session()] *)
Definition http_session : M nat :=
  session ← Session_new;
  Session_set_verify session true;;
  mret session.

Definition test_liveness (http_session : nat) : M () :=
  https_response ← Session_get http_session HTTPS_WWW_URL true;
  py_assert (bool_decide (status_code https_response = 200))
    ("Unexpected response code: " +:+ Py.str_of_int (status_code https_response)
     +:+ " (expected 200)").

Definition test_http_to_https_redirect (http_session : nat) : M () :=
  response ← Session_get http_session HTTP_WWW_URL false;
  py_assert (bool_decide (status_code response = 301))
    ("Unexpected code: " +:+ Py.str_of_int (status_code response)
     +:+ " (strictly expected 301 for a permanent redirect)");;
  match headers_get "Location" (headers response) with
  | None => raise (AssertionError "Location header missing")
  | Some location =>
      parsed_location ← lift (urlparse location);
      py_assert (bool_decide (scheme parsed_location = "https"))
        ("Redirect to " +:+ scheme parsed_location +:+ ", not HTTPS");;
      py_assert (bool_decide (netloc parsed_location = WWW_DOMAIN))
        ("Domain changed: " +:+ netloc parsed_location +:+ " (expected "
         +:+ WWW_DOMAIN +:+ " to preserve 'www')");;
      py_assert (bool_decide (path parsed_location = "/"))
        ("Path changed: " +:+ path parsed_location +:+ " (expected '/' for root)");;
      print ("HTTP->HTTPS redirect successful: " +:+ HTTP_WWW_URL +:+ " -> " +:+ location)
  end.

Definition test_non_www_to_www_redirect (http_session : nat) : M () :=
  response ← Session_get http_session HTTPS_NON_WWW_URL false;
  py_assert (bool_decide (status_code response = 301))
    ("Unexpected code: " +:+ Py.str_of_int (status_code response)
     +:+ " (strictly expected 301 for a permanent redirect)");;
  match headers_get "Location" (headers response) with
  | None => raise (AssertionError "Location header missing")
  | Some location =>
      parsed_location ← lift (urlparse location);
      py_assert (bool_decide (scheme parsed_location = "https"))
        ("Redirect to " +:+ scheme parsed_location +:+ ", not HTTPS");;
      py_assert (bool_decide (netloc parsed_location = WWW_DOMAIN))
        ("Domain unchanged or incorrect: " +:+ netloc parsed_location +:+ " (expected "
         +:+ WWW_DOMAIN +:+ " with 'www' added)");;
      py_assert (bool_decide (path parsed_location = "/"))
        ("Path changed: " +:+ path parsed_location +:+ " (expected '/' for root)");;
      print ("Without www -> with www redirect successful: " +:+ HTTPS_NON_WWW_URL
             +:+ " -> " +:+ location)
  end.

Definition test_hsts_header (http_session : nat) : M () :=
  http_response ← Session_get http_session HTTP_WWW_URL false;
  match headers_get "Strict-Transport-Security" (headers http_response) with
  | Some hsts_http =>
      raise (AssertionError ("HSTS present on HTTP: " +:+ hsts_http
                             +:+ " (should be absent to avoid leaks)"))
  | None =>
      https_response ← Session_get http_session HTTPS_WWW_URL true;
      py_assert (bool_decide (status_code https_response = 200))
        ("Unexpected HTTPS status: " +:+ Py.str_of_int (status_code https_response)
         +:+ " (expected 200)");;
      match headers_get "Strict-Transport-Security" (headers https_response) with
      | None => raise (AssertionError "HSTS header missing on HTTPS")
      | Some hsts_https =>
          py_assert (Py.contains (Py.lower hsts_https) "max-age")
            ("Invalid HSTS value on HTTPS: " +:+ hsts_https
             +:+ " (should include 'max-age')");;
          print ("HSTS verified: Absent on HTTP, present on HTTPS with '"
                 +:+ hsts_https +:+ "'")
      end
  end.

(** ** pytest *)

(** The function behind a collected test. *)
Definition test_function (t : TestId) : nat → M () :=
  match t with
  | Liveness => test_liveness
  | HttpToHttpsRedirect => test_http_to_https_redirect
  | NonWwwToWwwRedirect => test_non_www_to_www_redirect
  | HstsHeader => test_hsts_header
  end.

(** The tests of [main.py] in the order pytest collects them. *)
Definition collected : list TestId :=
  [Liveness; HttpToHttpsRedirect; NonWwwToWwwRedirect; HstsHeader].

(** Running one test. [http_session] is declared with [@pytest.fixture]
    and no [scope], which is function scope: pytest calls the fixture anew
    for every test that names it and passes the result as the argument. An
    exception that leaves the test makes it [FAILED]. *)
Definition pytest_call (t : TestId) (st : State) : Outcome * State :=
  match (session ← http_session; test_function t session) st with
  | (inr _, st') => (PASSED, st')
  | (inl e, st') => (FAILED e, st')
  end.

(** Running tests one after the other on the same client state. *)
Fixpoint pytest_run (tests : list TestId) (st : State) : list Outcome * State :=
  match tests with
  | [] => ([], st)
  | t :: tests' =>
      let '(o, st') := pytest_call t st in
      let '(os, st'') := pytest_run tests' st' in
      (o :: os, st'')
  end.

End Probe.

(** ** Vocabulary of the specification *)

(** The two redirect checks and the URL each one requests. *)
Definition redirect_check (t : TestId) (url : string) : Prop :=
  (t = HttpToHttpsRedirect ∧ url = HTTP_WWW_URL)
  ∨ (t = NonWwwToWwwRedirect ∧ url = HTTPS_NON_WWW_URL).




(** Every request of the log went through one and the same session
    object. *)
Definition single_shared_session (log : list Sent) : Prop :=
  ∃ session, ∀ r, r ∈ log → via r = session.


(** A scheme as it can stand before [://]: a letter first, then letters,
    digits, [+], [-] and [.]. *)
Definition scheme_token (s : string) : bool :=
  match s with
  | EmptyString => false
  | String c _ => Py.is_ascii_alpha c && Py.all_chars UrlParse.is_scheme_char s
  end.

(** A host written without delimiter, bracket, tab or line break. *)
Definition plain_host (s : string) : bool :=
  Py.all_chars
    (λ c, negb (Py.has_char c "/?#[]") && negb (UrlParse.is_unsafe_url_byte c)) s.



(** ** Running the fixture and a request *)

Lemma fixture_heap (l : list Session) :
  <[length l := mkSession true]> (l ++ [mkSession true]) = l ++ [mkSession true].
Proof. apply list_insert_id, list_lookup_middle; reflexivity. Qed.

Lemma pytest_call_unfold ip_address server t st :
  pytest_call ip_address server t st =
  match test_function ip_address server t (length (sessions st))
          (mkState (sessions st ++ [mkSession true]) (sent st) (stdout st)) with
  | (inr _, st') => (PASSED, st')
  | (inl e, st') => (FAILED e, st')
  end.
Proof.
  unfold pytest_call, http_session, mbind, M_bind, Session_new, Session_set_verify, mret, M_ret.
  cbn. rewrite fixture_heap. reflexivity.
Qed.

Lemma Session_get_live server session url allow_redirects st s :
  sessions st !! session = Some s →
  Session_get server session url allow_redirects st =
  (match server url allow_redirects with
   | inl msg => inl (RequestException msg)
   | inr response => inr response
   end,
   mkState (sessions st) (sent st ++ [mkSent session url allow_redirects (verify s)])
           (stdout st)).
Proof. intros H. unfold Session_get. rewrite H. reflexivity. Qed.

Ltac live := cbn [sessions]; apply list_lookup_middle; reflexivity.

Ltac step :=
  first
    [ erewrite Session_get_live by live
    | progress cbn [sessions sent stdout verify fst snd mbind M_bind mret M_ret
                    py_assert lift raise print] ].

(** Unfold a test called by pytest down to its first request. *)
Ltac run :=
  rewrite ?pytest_call_unfold; cbn [test_function];
  unfold test_liveness, test_http_to_https_redirect, test_non_www_to_www_redirect,
    test_hsts_header;
  unfold mbind, M_bind, lift, py_assert; repeat step.

(** Split on the next thing the test inspects. *)
Ltac branch :=
  match goal with
  | |- context [bool_decide ?P] => destruct (bool_decide_reflect P)
  | |- context [match ?x with inl _ => _ | inr _ => _ end] =>
      lazymatch x with
      | context [match _ with inl _ => _ | inr _ => _ end] => fail
      | _ => destruct x eqn:?
      end
  | |- context [match ?x with Some _ => _ | None => _ end] => destruct x eqn:?
  | |- context [if ?b then _ else _] => destruct b eqn:?
  end.

Ltac cases := run; repeat step; repeat (branch; repeat step).

(** ** Substrings of messages *)





(** Close a leaf of the case analysis. *)
Ltac settle :=
  repeat match goal with
         | |- _ ∧ _ => split
         | |- _ ↔ _ => split
         | |- ∀ _, _ => intro
         | H : ∃ _, _ |- _ => destruct H
         | H : _ ∧ _ |- _ => destruct H
         | H : _ ∨ _ |- _ => destruct H
         end;
  simplify_eq;
  repeat (match goal with
          | H1 : ?a = inr ?x, H2 : ?a = inr ?y |- _ =>
              first [ constr_eq x y; fail 1
                    | assert (y = x) by congruence; subst y ]
          end; simplify_eq);
  try done; try congruence; eauto 15; try solve [exfalso; eauto 15].



Lemma pytest_run_cons_state ip_address server t tests st :
  (pytest_run ip_address server (t :: tests) st).2
  = (pytest_run ip_address server tests (pytest_call ip_address server t st).2).2.
Proof.
  cbn [pytest_run]. destruct (pytest_call ip_address server t st) as [o st'].
  cbn [fst snd]. destruct (pytest_run ip_address server tests st') as [os st''].
  reflexivity.
Qed.

Lemma pytest_run_cons_outcomes ip_address server t tests st :
  (pytest_run ip_address server (t :: tests) st).1
  = (pytest_call ip_address server t st).1
    :: (pytest_run ip_address server tests (pytest_call ip_address server t st).2).1.
Proof.
  cbn [pytest_run]. destruct (pytest_call ip_address server t st) as [o st'].
  cbn [fst snd]. destruct (pytest_run ip_address server tests st') as [os st''].
  reflexivity.
Qed.

(** Whatever [urlparse] raises is a [ValueError]. *)
Lemma check_bracketed_host_raises_ValueError ip_address hostname e :
  UrlParse._check_bracketed_host ip_address hostname = Some e → ∃ msg, e = ValueError msg.
Proof.
  unfold UrlParse._check_bracketed_host. intros H.
  repeat case_match; simplify_eq; eauto.
Qed.

Lemma check_netloc_raises_ValueError ip_address netloc e :
  UrlParse.check_netloc ip_address netloc = Some e → ∃ msg, e = ValueError msg.
Proof.
  unfold UrlParse.check_netloc, UrlParse._check_bracketed_netloc. intros H.
  repeat case_match; simplify_eq; eauto using check_bracketed_host_raises_ValueError.
Qed.

Lemma urlsplit_raises_ValueError ip_address url e :
  UrlParse.urlsplit ip_address url = inl e → ∃ msg, e = ValueError msg.
Proof.
  unfold UrlParse.urlsplit. intros H.
  match type of H with
  | (match ?x with pair _ _ => _ end) = _ => destruct x as [sch u]
  end.
  destruct (Py.slice_to 2 u =? "//")%string.
  - destruct (UrlParse._splitnetloc u) as [n u0].
    destruct (UrlParse.check_netloc ip_address n) as [e'|] eqn:Hc.
    + simplify_eq. eauto using check_netloc_raises_ValueError.
    + repeat case_match; discriminate.
  - repeat case_match; discriminate.
Qed.

Lemma urlparse_raises_ValueError ip_address url e :
  UrlParse.urlparse ip_address url = inl e → ∃ msg, e = ValueError msg.
Proof.
  unfold UrlParse.urlparse. intros H.
  destruct (UrlParse.urlsplit ip_address url) as [e'|[[[[? ?] ?] ?] ?]] eqn:Hsplit.
  - simplify_eq. eauto using urlsplit_raises_ValueError.
  - repeat case_match; discriminate.
Qed.


Section Claims.

Variable ip_address : string → string + IPAddress.
Variable server : string → bool → string + Response.

(** A check as pytest runs it on a client state: its outcome and the
    state it leaves. *)
Local Abbreviation check := (pytest_call ip_address server).
Local Abbreviation urlparse := (UrlParse.urlparse ip_address).

(** C5: the liveness check sends one GET to [https://www.<domain>],
    following redirects, and passes if and only if the status code of the
    response is 200; on any other status code it fails with a message that
    reports that code. *)
Theorem liveness_passes_iff_200 st response :
  server HTTPS_WWW_URL true = inr response →
  sent (check Liveness st).2
    = sent st ++ [mkSent (length (sessions st)) HTTPS_WWW_URL true true]
  ∧ ((check Liveness st).1 = PASSED ↔ status_code response = 200)
  ∧ (status_code response ≠ 200 →
     (check Liveness st).1
     = FAILED (AssertionError ("Unexpected response code: "
                               +:+ Py.str_of_int (status_code response)
                               +:+ " (expected 200)"))).
Proof.
  intros H. run. rewrite H. cases; settle.
Qed.







(** C6, as amended: every check gets a session object of its own. pytest
    calls the function-scoped fixture once per check; the new session
    verifies TLS certificates; the check sends all its requests, at least
    one, on that session with verification on, and leaves the configuration
    of every session as it was. A run of [n] checks therefore creates [n]
    sessions. *)
Theorem each_check_has_its_own_session :
  (∀ t st,
     sessions (check t st).2 = sessions st ++ [mkSession true]
     ∧ ∃ requests,
         requests ≠ []
         ∧ sent (check t st).2 = sent st ++ requests
         ∧ Forall (λ r, via r = length (sessions st) ∧ tls_verified r = true) requests)
  ∧ (∀ tests st,
       sessions (pytest_run ip_address server tests st).2
       = sessions st ++ replicate (length tests) (mkSession true)).
Proof.
  assert (Hcall : ∀ t st,
    sessions (check t st).2 = sessions st ++ [mkSession true]
    ∧ ∃ requests,
        requests ≠ []
        ∧ sent (check t st).2 = sent st ++ requests
        ∧ Forall (λ r, via r = length (sessions st) ∧ tls_verified r = true) requests).
  { intros [] st; cases; (split; [reflexivity|]); rewrite <- ?app_assoc;
      (eexists; split; [|split; [reflexivity|]]; [discriminate|]);
      repeat constructor. }
  split; [exact Hcall|].
  induction tests as [|t tests IH]; intros st.
  - cbn. rewrite app_nil_r. reflexivity.
  - rewrite pytest_run_cons_state, IH. destruct (Hcall t st) as [-> _].
    rewrite <- app_assoc. reflexivity.
Qed.

End Claims.

(** ** The session handle pytest passes is always live *)

Lemma pytest_call_never_faults ip_address server t st :
  (pytest_call ip_address server t st).1 ≠ FAILED Fault.
Proof.
  destruct t; cases; try discriminate;
    match goal with
    | H : UrlParse.urlparse _ _ = inl _ |- _ =>
        destruct (urlparse_raises_ValueError _ _ _ H) as [msg ->]; discriminate
    end.
Qed.

(** ** Outcomes as a function of the responses *)

Lemma outcome_determined ip_address server server' t st st' :
  server HTTP_WWW_URL false = server' HTTP_WWW_URL false →
  server HTTPS_NON_WWW_URL false = server' HTTPS_NON_WWW_URL false →
  server HTTPS_WWW_URL true = server' HTTPS_WWW_URL true →
  (pytest_call ip_address server t st).1 = (pytest_call ip_address server' t st').1.
Proof.
  intros H1 H2 H3.
  destruct t; run; repeat (rewrite ?H1, ?H2, ?H3; branch; repeat step); reflexivity.
Qed.

Lemma pytest_run_outcomes ip_address server tests st :
  (pytest_run ip_address server tests st).1
  = (λ t, (pytest_call ip_address server t initial_state).1) <$> tests.
Proof.
  revert st. induction tests as [|t tests IH]; intros st; [reflexivity|].
  rewrite pytest_run_cons_outcomes, IH. cbn [fmap list_fmap]. f_equal.
  apply outcome_determined; reflexivity.
Qed.

(** C8: the outcome of every check in a run is the outcome of that check
    run alone from the initial client state, whatever the state the run
    starts from and whatever the order and number of the checks; hence a
    second run of all checks right after the first gives the same outcomes,
    and two servers that give the same three responses give the same
    outcomes. *)
Theorem outcomes_depend_on_responses_only ip_address server :
  (∀ tests st,
     (pytest_run ip_address server tests st).1
     = (λ t, (pytest_call ip_address server t initial_state).1) <$> tests)
  ∧ (∀ st,
       (pytest_run ip_address server collected
          (pytest_run ip_address server collected st).2).1
       = (pytest_run ip_address server collected st).1)
  ∧ (∀ server' tests st st',
       server HTTP_WWW_URL false = server' HTTP_WWW_URL false →
       server HTTPS_NON_WWW_URL false = server' HTTPS_NON_WWW_URL false →
       server HTTPS_WWW_URL true = server' HTTPS_WWW_URL true →
       (pytest_run ip_address server tests st).1
       = (pytest_run ip_address server' tests st').1).
Proof.
  split; [|split].
  - apply pytest_run_outcomes.
  - intros st. rewrite !pytest_run_outcomes. reflexivity.
  - intros server' tests st st' H1 H2 H3. rewrite !pytest_run_outcomes.
    induction tests as [|t tests IH]; [reflexivity|].
    cbn [fmap list_fmap]. f_equal; [|exact IH].
    apply outcome_determined; assumption.
Qed.


(** ** The library model on the inputs the examples use *)

Example urlparse_root_url :
  UrlParse.urlparse ip_address_none "https://www.kouidri.fr/"
  = inr (mkParseResult "https" "www.kouidri.fr" "/" "" "" "").
Proof. reflexivity. Qed.

Example urlparse_upper_case_scheme :
  UrlParse.urlparse ip_address_none "HTTPS://www.kouidri.fr/"
  = inr (mkParseResult "https" "www.kouidri.fr" "/" "" "" "").
Proof. reflexivity. Qed.

Example urlparse_all_components :
  UrlParse.urlparse ip_address_none "https://www.kouidri.fr/;a?b#c"
  = inr (mkParseResult "https" "www.kouidri.fr" "/" "a" "b" "c").
Proof. reflexivity. Qed.

Example urlparse_no_path :
  UrlParse.urlparse ip_address_none "https://www.kouidri.fr"
  = inr (mkParseResult "https" "www.kouidri.fr" "" "" "" "").
Proof. reflexivity. Qed.

Example urlparse_relative_path :
  UrlParse.urlparse ip_address_none "/" = inr (mkParseResult "" "" "/" "" "" "").
Proof. reflexivity. Qed.

Example urlparse_host_and_port_without_scheme :
  UrlParse.urlparse ip_address_none "www.kouidri.fr:443/x"
  = inr (mkParseResult "www.kouidri.fr" "" "443/x" "" "" "").
Proof. reflexivity. Qed.

Example urlparse_unmatched_bracket :
  UrlParse.urlparse ip_address_none "http://[::1" = inl (ValueError "Invalid IPv6 URL").
Proof. reflexivity. Qed.

Example headers_get_ignores_case :
  headers_get "location" (headers_set "LOCATION" "/" ∅) = Some "/".
Proof. reflexivity. Qed.

Example lower_of_header_value :
  Py.lower "Max-Age=31536000; includeSubDomains" = "max-age=31536000; includesubdomains".
Proof. reflexivity. Qed.

Example healthy_run :
  (pytest_run ip_address_none healthy collected initial_state).1
  = [PASSED; PASSED; PASSED; PASSED].
Proof. reflexivity. Qed.

(** ** The claims on concrete servers *)

Lemma liveness_passes_iff_200_witness :
  (pytest_call ip_address_none healthy Liveness initial_state).1 = PASSED
  ∧ (pytest_call ip_address_none (serve good_redirect good_redirect (inr (page 503 None)))
       Liveness initial_state).1
    = FAILED (AssertionError "Unexpected response code: 503 (expected 200)").
Proof.
  split.
  - apply (liveness_passes_iff_200 ip_address_none healthy initial_state
             (page 200 (Some "max-age=31536000; includeSubDomains")) eq_refl).
    reflexivity.
  - apply (liveness_passes_iff_200 ip_address_none
             (serve good_redirect good_redirect (inr (page 503 None))) initial_state
             (page 503 None) eq_refl).
    discriminate.
Defined.



Example location_with_port_fails_on_netloc :
  (pytest_call ip_address_none
     (serve (inr (redirect_to 301 "https://www.kouidri.fr:443/")) good_redirect good_page)
     HttpToHttpsRedirect initial_state).1
  = FAILED (AssertionError
      "Domain changed: www.kouidri.fr:443 (expected www.kouidri.fr to preserve 'www')").
Proof. reflexivity. Qed.

Example bare_domain_location_fails_on_netloc :
  (pytest_call ip_address_none
     (serve good_redirect (inr (redirect_to 301 "https://kouidri.fr/")) good_page)
     NonWwwToWwwRedirect initial_state).1
  = FAILED (AssertionError
      "Domain unchanged or incorrect: kouidri.fr (expected www.kouidri.fr with 'www' added)").
Proof. reflexivity. Qed.







(** C6 as stated fails: on the healthy server the five requests of a run
    leave through four different session objects. *)
Lemma shared_session_counterexample :
  map via (sent (pytest_run ip_address_none healthy collected initial_state).2)
  = [0; 1; 2; 3; 3]%nat
  ∧ ¬ single_shared_session
        (sent (pytest_run ip_address_none healthy collected initial_state).2).
Proof.
  split; [reflexivity|].
  intros [session Hall].
  assert (Hlog :
            sent (pytest_run ip_address_none healthy collected initial_state).2
            = [mkSent 0 HTTPS_WWW_URL true true; mkSent 1 HTTP_WWW_URL false true;
               mkSent 2 HTTPS_NON_WWW_URL false true; mkSent 3 HTTP_WWW_URL false true;
               mkSent 3 HTTPS_WWW_URL true true])
    by (vm_compute; reflexivity).
  rewrite Hlog in Hall.
  pose proof (Hall _ (list_elem_of_here _ _)) as H0.
  pose proof (Hall _ (list_elem_of_further _ _ _ (list_elem_of_here _ _))) as H1.
  cbn [via] in H0, H1. congruence.
Qed.

Lemma each_check_has_its_own_session_witness :
  sessions (pytest_run ip_address_none healthy collected initial_state).2
  = [mkSession true; mkSession true; mkSession true; mkSession true].
Proof.
  apply (each_check_has_its_own_session ip_address_none healthy).
Defined.

Lemma outcomes_depend_on_responses_only_witness :
  (pytest_run ip_address_none healthy collected
     (pytest_run ip_address_none healthy collected initial_state).2).1
  = (pytest_run ip_address_none healthy collected initial_state).1
  ∧ (pytest_run ip_address_none healthy [HstsHeader; Liveness] initial_state).1
    = (pytest_run ip_address_none healthy_and_more [HstsHeader; Liveness]
         (pytest_run ip_address_none healthy collected initial_state).2).1.
Proof.
  split.
  - apply (proj1 (proj2 (outcomes_depend_on_responses_only ip_address_none healthy))).
  - apply (proj2 (proj2 (outcomes_depend_on_responses_only ip_address_none healthy)));
      reflexivity.
Defined.


(** ** Further behaviour of the checks *)

Section Behaviour.

Variable ip_address : string → string + IPAddress.
Variable server : string → bool → string + Response.

Local Abbreviation check := (pytest_call ip_address server).
Local Abbreviation urlparse := (UrlParse.urlparse ip_address).


(** X2: the HSTS check repeats the request and the status test of the
    liveness check, so whenever the HSTS check passes the liveness check
    passes too, whatever the client states they start from. *)
Theorem hsts_pass_implies_liveness_pass st st' :
  (pytest_call ip_address server HstsHeader st).1 = PASSED →
  (pytest_call ip_address server Liveness st').1 = PASSED.
Proof.
  cases; settle.
Qed.


(** X4: a check prints only when it passes. The liveness check prints
    nothing; a failed check prints nothing; a redirect check that passes
    prints one line that ends in the [Location] value as it was received,
    and the HSTS check that passes prints one line that quotes the header
    value as it was received. *)
Theorem prints_exactly_on_success st :
  stdout (check Liveness st).2 = stdout st
  ∧ (∀ t e, (check t st).1 = FAILED e → stdout (check t st).2 = stdout st)
  ∧ ((check HttpToHttpsRedirect st).1 = PASSED →
     ∃ response location,
       server HTTP_WWW_URL false = inr response
       ∧ headers_get "Location" (headers response) = Some location
       ∧ stdout (check HttpToHttpsRedirect st).2
         = stdout st ++ ["HTTP->HTTPS redirect successful: " +:+ HTTP_WWW_URL
                         +:+ " -> " +:+ location])
  ∧ ((check NonWwwToWwwRedirect st).1 = PASSED →
     ∃ response location,
       server HTTPS_NON_WWW_URL false = inr response
       ∧ headers_get "Location" (headers response) = Some location
       ∧ stdout (check NonWwwToWwwRedirect st).2
         = stdout st ++ ["Without www -> with www redirect successful: "
                         +:+ HTTPS_NON_WWW_URL +:+ " -> " +:+ location])
  ∧ ((check HstsHeader st).1 = PASSED →
     ∃ https_response hsts_https,
       server HTTPS_WWW_URL true = inr https_response
       ∧ headers_get "Strict-Transport-Security" (headers https_response) = Some hsts_https
       ∧ stdout (check HstsHeader st).2
         = stdout st ++ ["HSTS verified: Absent on HTTP, present on HTTPS with '"
                         +:+ hsts_https +:+ "'"]).
Proof.
  split; [cases; reflexivity|].
  split; [intros [] e; cases; settle|].
  repeat split; cases; settle.
Qed.

(** X6: the two redirect checks apply the same criteria: when the server
    answers both requests alike, one passes if and only if the other
    does. *)
Theorem redirect_checks_accept_the_same_answers st st' :
  server HTTP_WWW_URL false = server HTTPS_NON_WWW_URL false →
  (check HttpToHttpsRedirect st).1 = PASSED ↔ (check NonWwwToWwwRedirect st').1 = PASSED.
Proof.
  intros H. run. rewrite H. repeat (branch; repeat step); settle.
Qed.


End Behaviour.

(** ** Strings built by concatenation *)

Lemma append_cons (c : ascii) (a b : string) : String c a +:+ b = String c (a +:+ b).
Proof. reflexivity. Qed.


Lemma all_chars_app p (a b : string) :
  Py.all_chars p (a +:+ b) = Py.all_chars p a && Py.all_chars p b.
Proof.
  induction a as [|c a IH]; [reflexivity|].
  rewrite append_cons. cbn [Py.all_chars]. rewrite IH. apply andb_assoc.
Qed.

Lemma all_chars_impl (p q : ascii → bool) (s : string) :
  (∀ c, p c = true → q c = true) → Py.all_chars p s = true → Py.all_chars q s = true.
Proof.
  intros Hpq. induction s as [|c s IH]; [reflexivity|].
  cbn [Py.all_chars]. intros [Hc Hs]%andb_true_iff.
  rewrite (Hpq c Hc), (IH Hs). reflexivity.
Qed.

Lemma remove_keep drop (s : string) :
  Py.all_chars (λ c, negb (drop c)) s = true → Py.remove drop s = s.
Proof.
  induction s as [|c s IH]; [reflexivity|].
  cbn [Py.all_chars Py.remove]. intros [Hc Hs]%andb_true_iff.
  apply negb_true_iff in Hc. rewrite Hc, (IH Hs). reflexivity.
Qed.

Lemma has_char_absent c (s : string) :
  Py.all_chars (λ a, negb (bool_decide (a = c))) s = true → Py.has_char c s = false.
Proof.
  induction s as [|a s IH]; [reflexivity|].
  cbn [Py.all_chars Py.has_char]. intros [Hc Hs]%andb_true_iff.
  apply negb_true_iff, bool_decide_eq_false in Hc.
  rewrite decide_False by exact Hc. exact (IH Hs).
Qed.

Lemma find_after c (s rest : string) :
  Py.all_chars (λ a, negb (bool_decide (a = c))) s = true →
  Py.find c (s +:+ String c rest) = Some (String.length s).
Proof.
  induction s as [|a s IH].
  - intros _. change ("" +:+ String c rest) with (String c rest).
    cbn [Py.find]. rewrite decide_True by reflexivity. reflexivity.
  - cbn [Py.all_chars]. intros [Hc Hs]%andb_true_iff.
    apply negb_true_iff, bool_decide_eq_false in Hc.
    rewrite append_cons. cbn [Py.find]. rewrite decide_False by exact Hc.
    rewrite (IH Hs). reflexivity.
Qed.

Lemma slice_to_app (s rest : string) : Py.slice_to (String.length s) (s +:+ rest) = s.
Proof.
  induction s as [|a s IH]; [reflexivity|].
  rewrite append_cons. cbn [String.length Py.slice_to]. rewrite IH. reflexivity.
Qed.

Lemma slice_from_app (s rest : string) : Py.slice_from (String.length s) (s +:+ rest) = rest.
Proof.
  induction s as [|a s IH]; [reflexivity|].
  rewrite append_cons. cbn [String.length Py.slice_from]. exact IH.
Qed.

Lemma slice_from_after (s : string) c (rest : string) :
  Py.slice_from (S (String.length s)) (s +:+ String c rest) = rest.
Proof.
  induction s as [|a s IH]; [reflexivity|].
  rewrite append_cons. cbn [String.length Py.slice_from]. exact IH.
Qed.

Lemma first_delim_app (s rest : string) :
  Py.all_chars (λ c, negb (Py.has_char c "/?#")) s = true →
  UrlParse.first_delim (s +:+ String "/" rest) = String.length s.
Proof.
  induction s as [|a s IH]; [reflexivity|].
  cbn [Py.all_chars]. intros [Hc Hs]%andb_true_iff. apply negb_true_iff in Hc.
  rewrite append_cons. cbn [UrlParse.first_delim String.length].
  rewrite Hc, (IH Hs). reflexivity.
Qed.

(** What a scheme character and a character of a plain host are not. *)
Lemma scheme_char_facts c :
  UrlParse.is_scheme_char c = true →
  negb (UrlParse.is_unsafe_url_byte c) = true ∧ negb (bool_decide (c = ":"%char)) = true.
Proof.
  destruct c as [[] [] [] [] [] [] [] []]; vm_compute; intros H;
    first [discriminate H | split; reflexivity].
Qed.

Lemma plain_host_char_facts c :
  negb (Py.has_char c "/?#[]") && negb (UrlParse.is_unsafe_url_byte c) = true →
  negb (UrlParse.is_unsafe_url_byte c) = true
  ∧ negb (Py.has_char c "/?#") = true
  ∧ negb (bool_decide (c = "["%char)) = true
  ∧ negb (bool_decide (c = "]"%char)) = true.
Proof.
  destruct c as [[] [] [] [] [] [] [] []]; vm_compute; intros H;
    first [discriminate H | repeat split; reflexivity].
Qed.

Lemma letter_is_not_stripped c :
  Py.is_ascii_alpha c = true → UrlParse.is_c0_control_or_space c = false.
Proof.
  destruct c as [[] [] [] [] [] [] [] []]; vm_compute; intros H;
    first [discriminate H | reflexivity].
Qed.


(** ** [urlparse] on [<scheme>://<host>/] *)

Lemma urlparse_root_form ip_address sch host :
  scheme_token sch = true →
  plain_host host = true →
  UrlParse.urlparse ip_address (sch +:+ "://" +:+ host +:+ "/")
  = inr (mkParseResult (Py.lower sch) host "/" "" "" "").
Proof.
  intros Hsch Hhost.
  destruct sch as [|c sch']; [discriminate Hsch|].
  cbn [scheme_token] in Hsch. apply andb_true_iff in Hsch as [Hc Hall].
  set (sch := String c sch') in *.
  assert (Hsafe_sch : Py.all_chars (λ a, negb (UrlParse.is_unsafe_url_byte a)) sch = true)
    by (eapply all_chars_impl; [|exact Hall]; intros a Ha; apply scheme_char_facts, Ha).
  assert (Hcolon : Py.all_chars (λ a, negb (bool_decide (a = ":"%char))) sch = true)
    by (eapply all_chars_impl; [|exact Hall]; intros a Ha; apply scheme_char_facts, Ha).
  assert (Hsafe_host : Py.all_chars (λ a, negb (UrlParse.is_unsafe_url_byte a)) host = true)
    by (eapply all_chars_impl; [|exact Hhost]; intros a Ha; apply plain_host_char_facts, Ha).
  assert (Hdelim : Py.all_chars (λ a, negb (Py.has_char a "/?#")) host = true)
    by (eapply all_chars_impl; [|exact Hhost]; intros a Ha; apply plain_host_char_facts, Ha).
  assert (Hopen : Py.has_char "[" host = false)
    by (apply has_char_absent; eapply all_chars_impl; [|exact Hhost];
        intros a Ha; apply plain_host_char_facts, Ha).
  assert (Hclose : Py.has_char "]" host = false)
    by (apply has_char_absent; eapply all_chars_impl; [|exact Hhost];
        intros a Ha; apply plain_host_char_facts, Ha).
  unfold UrlParse.urlparse, UrlParse.urlsplit.
  assert (Hstrip : Py.lstrip UrlParse.is_c0_control_or_space (sch +:+ "://" +:+ host +:+ "/")
                   = sch +:+ "://" +:+ host +:+ "/").
  { unfold sch. rewrite append_cons. cbn [Py.lstrip].
    rewrite (letter_is_not_stripped c Hc). reflexivity. }
  rewrite Hstrip.
  assert (Hremove : Py.remove UrlParse.is_unsafe_url_byte (sch +:+ "://" +:+ host +:+ "/")
                    = sch +:+ "://" +:+ host +:+ "/").
  { apply remove_keep. rewrite !all_chars_app, Hsafe_sch, Hsafe_host. reflexivity. }
  rewrite Hremove.
  change (sch +:+ "://" +:+ host +:+ "/")
    with (sch +:+ String ":" ("//" +:+ host +:+ "/")).
  rewrite (find_after ":" sch _ Hcolon).
  subst sch. rewrite append_cons.
  cbn [String.length Py.slice_to].
  change (Py.slice_from (S (S ?n)) (String c ?s)) with (Py.slice_from (S n) s).
  rewrite slice_to_app, slice_from_after.
  change (String c sch' +:+ ?x) with (String c (sch' +:+ x)) in Hall.
  rewrite Hc, Hall. cbn [andb].
  change ("//" +:+ host +:+ "/") with (String "/" (String "/" (host +:+ "/"))).
  cbn [Py.slice_to]. change (("//" =? "//")%string) with true. cbv iota.
  unfold UrlParse._splitnetloc. cbn [Py.slice_from].
  rewrite (first_delim_app host "" Hdelim), slice_to_app, slice_from_app.
  unfold UrlParse.check_netloc. rewrite Hopen, Hclose. cbn [andb orb negb].
  change (Py.has_char "#" "/") with false. lazy beta iota zeta.
  change (Py.has_char "?" "/") with false. lazy beta iota zeta.
  change (Py.has_char ";" "/") with false.
  rewrite andb_false_r. reflexivity.
Qed.

(** ** Further behaviour of the redirect and HSTS checks *)

Section Locations.

Variable ip_address : string → string + IPAddress.
Variable server : string → bool → string + Response.

Local Abbreviation check := (pytest_call ip_address server).

(** X8: for a [Location] written [<scheme>://<host>/], both redirect
    checks pass exactly when the scheme is [https] in any letter case and
    the host is [www.<domain>] character for character: another letter
    case in the host, a port or a user name makes the check fail. *)
Theorem root_location_passes_iff t url st response sch host :
  redirect_check t url →
  server url false = inr response →
  status_code response = 301 →
  headers_get "Location" (headers response) = Some (sch +:+ "://" +:+ host +:+ "/") →
  scheme_token sch = true →
  plain_host host = true →
  (check t st).1 = PASSED ↔ Py.lower sch = "https" ∧ host = WWW_DOMAIN.
Proof.
  intros [[-> ->]|[-> ->]] H Hcode Hloc Hsch Hhost; run; rewrite H; repeat step;
    rewrite bool_decide_eq_true_2 by assumption; rewrite Hloc; repeat step;
    rewrite (urlparse_root_form _ _ _ Hsch Hhost); repeat step;
    cbn [scheme netloc path]; repeat (branch; repeat step); settle.
Qed.


End Locations.


Lemma root_location_passes_iff_witness :
  (pytest_call ip_address_none
     (serve (inr (redirect_to 301 "HTTPS://www.kouidri.fr/")) good_redirect good_page)
     HttpToHttpsRedirect initial_state).1 = PASSED
  ∧ (pytest_call ip_address_none
       (serve good_redirect (inr (redirect_to 301 "https://WWW.KOUIDRI.FR/")) good_page)
       NonWwwToWwwRedirect initial_state).1 ≠ PASSED.
Proof.
  split.
  - apply (root_location_passes_iff ip_address_none
             (serve (inr (redirect_to 301 "HTTPS://www.kouidri.fr/")) good_redirect good_page)
             HttpToHttpsRedirect HTTP_WWW_URL initial_state
             (redirect_to 301 "HTTPS://www.kouidri.fr/") "HTTPS" "www.kouidri.fr");
      [left; split; reflexivity | reflexivity .. | split; reflexivity].
  - intros Hpass.
    apply (root_location_passes_iff ip_address_none
             (serve good_redirect (inr (redirect_to 301 "https://WWW.KOUIDRI.FR/")) good_page)
             NonWwwToWwwRedirect HTTPS_NON_WWW_URL initial_state
             (redirect_to 301 "https://WWW.KOUIDRI.FR/") "https" "WWW.KOUIDRI.FR")
      in Hpass; [|right; split; reflexivity | reflexivity ..].
    destruct Hpass as [_ Hhost]. discriminate Hhost.
Defined.



(** ** The module as a whole *)

Section Suite.

Variable ip_address : string → string + IPAddress.
Variable server : string → bool → string + Response.

Local Abbreviation check := (pytest_call ip_address server).






End Suite.

(** ** The further properties on concrete servers *)


Lemma hsts_pass_implies_liveness_pass_witness :
  (pytest_call ip_address_none healthy Liveness initial_state).1 = PASSED.
Proof.
  apply (hsts_pass_implies_liveness_pass ip_address_none healthy initial_state).
  reflexivity.
Defined.


Lemma prints_exactly_on_success_witness :
  stdout (pytest_call ip_address_none
            (serve (inr (redirect_to 302 "https://www.kouidri.fr/")) good_redirect good_page)
            HttpToHttpsRedirect initial_state).2 = [].
Proof.
  apply (prints_exactly_on_success ip_address_none
           (serve (inr (redirect_to 302 "https://www.kouidri.fr/")) good_redirect good_page)
           initial_state)
    with (e := AssertionError
                 "Unexpected code: 302 (strictly expected 301 for a permanent redirect)").
  reflexivity.
Defined.

Example healthy_run_prints :
  stdout (pytest_run ip_address_none healthy collected initial_state).2
  = ["HTTP->HTTPS redirect successful: http://www.kouidri.fr -> https://www.kouidri.fr/";
     "Without www -> with www redirect successful: https://kouidri.fr -> https://www.kouidri.fr/";
     "HSTS verified: Absent on HTTP, present on HTTPS with 'max-age=31536000; includeSubDomains'"].
Proof. vm_compute. reflexivity. Qed.

Lemma redirect_checks_accept_the_same_answers_witness :
  (pytest_call ip_address_none healthy HttpToHttpsRedirect initial_state).1 = PASSED
  ↔ (pytest_call ip_address_none healthy NonWwwToWwwRedirect initial_state).1 = PASSED.
Proof.
  apply (redirect_checks_accept_the_same_answers ip_address_none healthy).
  reflexivity.
Defined.

